(** * rec_to_nwb: video timestamp extraction and per-date build orchestration

    A shallow embedding of

    - [rec_to_nwb/processing/nwb/components/video_files/fl_video_files_extractor.py]
      (class [FlVideoFilesExtractor]) and
    - [src/datamigration/raw_to_nwb_builder.py] (class [RawToNWBBuilder]),

    followed by the properties of the two classes.

    Python values are modelled by a small universe [pyval], exceptions by
    the type [exn], and effectful methods by a state-and-exception monad
    [M S A := S -> result A * S]: the state carries what a test double
    would record (reader calls, log lines, collaborator calls) and, for the
    orchestrator, the file system. *)

From Stdlib Require Import ZArith Ascii String List Floats.
From stdpp Require Import gmap strings list.
Import ListNotations.

Local Set Warnings "-register-all".

Local Open Scope Z_scope.
Local Open Scope string_scope.
Local Open Scope list_scope.

(** ** Exceptions and outcomes *)

Inductive exn :=
| TypeError
| KeyError
| IndexError
| OverflowError
| ZeroDivisionError
| FileNotFoundError
| NotADirectoryError
| UnboundLocalError
| OtherException (name : string).

(** [except FileNotFoundError]: the class has no subclass in the model. *)
Definition is_FileNotFoundError (e : exn) : bool :=
  match e with
  | FileNotFoundError => true
  | _ => false
  end.

Inductive result (A : Type) :=
| Ok (a : A)
| Raise (e : exn).
Arguments Ok {A} a.
Arguments Raise {A} e.

Definition is_Ok {A} (r : result A) : bool :=
  match r with
  | Ok _ => true
  | Raise _ => false
  end.

(** ** The state-and-exception monad *)

Module Eff.

Definition M (S A : Type) : Type := S -> result A * S.

Definition ret {S A} (a : A) : M S A := fun s => (Ok a, s).

Definition raise {S A} (e : exn) : M S A := fun s => (Raise e, s).

Definition bind {S A B} (c : M S A) (k : A -> M S B) : M S B :=
  fun s =>
    match c s with
    | (Ok a, s') => k a s'
    | (Raise e, s') => (Raise e, s')
    end.

(** A pure computation that may raise. *)
Definition lift {S A} (r : result A) : M S A := fun s => (r, s).

(** [try: body except <handles>: handler].  Effects of [body] that
    happened before the exception stay. *)
Definition try_except {S A} (body : M S A) (handles : exn -> bool)
    (handler : M S A) : M S A :=
  fun s =>
    match body s with
    | (Ok a, s') => (Ok a, s')
    | (Raise e, s') => if handles e then handler s' else (Raise e, s')
    end.

End Eff.
Import Eff.

Notation "x <- c ;; k" := (bind c (fun x => k))
  (at level 63, c at next level, right associativity).

(** ** Python values *)

(** A numpy array, by element type.  Integer arrays hold the 64-bit
    values as integers; float arrays hold binary64 values. *)
Inductive ndarray :=
| IntArray (l : list Z)
| FloatArray (l : list float).

(** Dictionaries are insertion-ordered association lists keyed by [str]. *)
Inductive pyval :=
| PNone
| PInt (z : Z)
| PFloat (f : float)
| PStr (s : string)
| PArray (a : ndarray)
| PDict (d : list (string * pyval)).

Fixpoint assoc (k : string) (d : list (string * pyval)) : option pyval :=
  match d with
  | [] => None
  | (k', v) :: d' => if String.eqb k k' then Some v else assoc k d'
  end.

(** [v[k]] for a [str] key [k]. *)
Definition getitem (v : pyval) (k : string) : result pyval :=
  match v with
  | PDict d =>
      match assoc k d with
      | Some x => Ok x
      | None => Raise KeyError
      end
  | PArray _ => Raise IndexError
  | PStr _ => Raise TypeError      (* string indices must be integers *)
  | PNone | PInt _ | PFloat _ => Raise TypeError   (* not subscriptable *)
  end.

Definition array_take (n : nat) (a : ndarray) : ndarray :=
  match a with
  | IntArray l => IntArray (take n l)
  | FloatArray l => FloatArray (take n l)
  end.

Definition array_length (a : ndarray) : nat :=
  match a with
  | IntArray l => length l
  | FloatArray l => length l
  end.

(** [v[:-4]].  A dictionary rejects the slice as a key (unhashable, as
    in CPython up to 3.11). *)
Definition slice_drop_last4 (v : pyval) : result pyval :=
  match v with
  | PStr s => Ok (PStr (String.substring 0 (String.length s - 4) s))
  | PArray a => Ok (PArray (array_take (array_length a - 4) a))
  | PNone | PInt _ | PFloat _ => Raise TypeError   (* not subscriptable *)
  | PDict _ => Raise TypeError                     (* unhashable type: 'slice' *)
  end.

(** [v + suffix] for a [str] literal [suffix]. *)
Definition add_str (v : pyval) (suffix : string) : result string :=
  match v with
  | PStr s => Ok (s +:+ suffix)
  | _ => Raise TypeError
  end.

Definition ends_with_sep (s : string) : bool :=
  match String.get (String.length s - 1) s with
  | Some c => Ascii.eqb c "/"%char
  | None => false
  end.

(** [os.path.join(a, b)] on POSIX, for two [str] arguments. *)
Definition os_path_join (a b : string) : string :=
  if String.prefix "/" b then b
  else if (String.eqb a "" || ends_with_sep a)%bool then a +:+ b
  else a +:+ "/" +:+ b.

(** The correctly rounded binary64 value of an integer. *)
Definition float_of_Z (z : Z) : float :=
  SF2Prim (binary_normalize prec emax z 0 false).

Definition is_infinite (f : float) : bool :=
  match Prim2SF f with
  | S754_infinity _ => true
  | _ => false
  end.

(** [v / d] for a Python float [d]. *)
Definition truediv (v : pyval) (d : float) : result pyval :=
  match v with
  | PInt z =>
      if is_infinite (float_of_Z z) then Raise OverflowError
      else if PrimFloat.eqb d 0 then Raise ZeroDivisionError
      else Ok (PFloat (float_of_Z z / d))
  | PFloat f =>
      if PrimFloat.eqb d 0 then Raise ZeroDivisionError
      else Ok (PFloat (f / d))
  | PArray (IntArray l) =>
      Ok (PArray (FloatArray (map (fun z => (float_of_Z z / d)%float) l)))
  | PArray (FloatArray l) =>
      Ok (PArray (FloatArray (map (fun f => (f / d)%float) l)))
  | PNone | PStr _ | PDict _ => Raise TypeError
  end.

(** ** [fl_video_files_extractor.py] *)

Definition NANOSECONDS_PER_SECOND : float := 1e9%float.

(** What a run of the extractor leaves behind: the arguments handed to
    [readTrodesExtractedDataFile], in call order, and the [logger.info]
    lines as (template, argument of [format]). *)
Record io := {
  reads : list pyval;
  infos : list (string * pyval)
}.

Definition io0 : io := {| reads := []; infos := [] |}.

Record FlVideoFilesExtractor := {
  raw_data_path : string;
  video_files_metadata : list pyval;
  convert_timestamps : bool;
  return_timestamps : bool
}.

Definition logger_info (template : string) (arg : pyval) : M io unit :=
  fun s => (Ok tt, {| reads := reads s; infos := infos s ++ [(template, arg)] |}).

Section Extractor.

(** The reader of the [rec_to_binaries] package: the value it returns,
    or the exception it raises, for each argument. *)
Variable readTrodesExtractedDataFile : pyval -> result pyval.

Definition call_reader (arg : pyval) : M io pyval :=
  fun s => (readTrodesExtractedDataFile arg,
            {| reads := reads s ++ [arg]; infos := infos s |}).

(** The two subscripts sit inside the reader's argument list, on the
    value of [os.path.join]. *)
Definition _read_video_timestamps_hw_sync (self : FlVideoFilesExtractor)
    (video_file : pyval) : M io pyval :=
  name <- lift (getitem video_file "name") ;;
  stem <- lift (slice_drop_last4 name) ;;
  file <- lift (add_str stem "videoTimeStamps.cameraHWSync") ;;
  data <- lift (getitem (PStr (os_path_join (raw_data_path self) file)) "data") ;;
  arg <- lift (getitem data "HWTimestamp") ;;
  call_reader arg.

Definition _read_video_timestamps_hw_framecount (self : FlVideoFilesExtractor)
    (video_file : pyval) : M io pyval :=
  name <- lift (getitem video_file "name") ;;
  stem <- lift (slice_drop_last4 name) ;;
  file <- lift (add_str stem "videoTimeStamps.cameraHWFrameCount") ;;
  data <- lift (getitem (PStr (os_path_join (raw_data_path self) file)) "data") ;;
  arg <- lift (getitem data "frameCount") ;;
  call_reader arg.

Definition _convert_timestamps (self : FlVideoFilesExtractor)
    (timestamps : pyval) : M io pyval :=
  lift (truediv timestamps NANOSECONDS_PER_SECOND).

End Extractor.

(** [video_file['name'][:-4]], the argument of both log lines. *)
Definition stem_of (video_file : pyval) : M io pyval :=
  name <- lift (getitem video_file "name") ;;
  lift (slice_drop_last4 name).

(** The body of [_get_timestamps].  The three methods it calls are looked
    up on [self] when the call happens, so the body is written over them;
    [_get_timestamps] below is the body at the class's own methods. *)
Definition _get_timestamps_with
    (read_hw_sync read_hw_framecount : pyval -> M io pyval)
    (convert : pyval -> M io pyval)
    (self : FlVideoFilesExtractor) (video_file : pyval) : M io pyval :=
  loaded <-
    try_except
      (video_timestamps <- read_hw_sync video_file ;;
       stem <- stem_of video_file ;;
       _ <- logger_info "Loaded cameraHWSync timestamps for {}" stem ;;
       ret (video_timestamps, false))
      is_FileNotFoundError
      (video_timestamps <- read_hw_framecount video_file ;;
       stem <- stem_of video_file ;;
       _ <- logger_info "Loaded cameraHWFrameCount for {} (old dataset)" stem ;;
       ret (video_timestamps, true)) ;;
  let '(video_timestamps, is_old_dataset) := loaded in
  if (is_old_dataset || negb (convert_timestamps self))%bool
  then ret video_timestamps
  else convert video_timestamps.

Section ExtractorMethods.

Variable readTrodesExtractedDataFile : pyval -> result pyval.

Definition _get_timestamps (self : FlVideoFilesExtractor)
    (video_file : pyval) : M io pyval :=
  _get_timestamps_with
    (_read_video_timestamps_hw_sync readTrodesExtractedDataFile self)
    (_read_video_timestamps_hw_framecount readTrodesExtractedDataFile self)
    (_convert_timestamps self)
    self video_file.

(** The [for] loop of [extract_video_files]; [extracted] is the list
    being appended to. *)
Fixpoint extract_loop (self : FlVideoFilesExtractor)
    (video_files : list pyval) (extracted : list pyval) : M io (list pyval) :=
  match video_files with
  | [] => ret extracted
  | video_file :: rest =>
      timestamps <-
        (if return_timestamps self
         then _get_timestamps self video_file
         else ret (PArray (FloatArray []))) ;;
      name <- lift (getitem video_file "name") ;;
      device <- lift (getitem video_file "camera_id") ;;
      extract_loop self rest
        (extracted ++
         [PDict [("name", name); ("timestamps", timestamps); ("device", device)]])
  end.

Definition extract_video_files (self : FlVideoFilesExtractor) : M io (list pyval) :=
  extract_loop self (video_files_metadata self) [].

End ExtractorMethods.

(** ** [raw_to_nwb_builder.py] *)

(** The file system: what sits at each path. *)
Inductive node :=
| File
| Dir.

Abbreviation filesystem := (gmap string node).

(** The object passed as [nwb_metadata]: its two attributes. *)
Record NWBMetadata := {
  md_metadata : pyval;
  md_probes : list pyval
}.

Record RawToNWBBuilder := {
  extract_analog : bool;
  extract_spikes : bool;
  extract_dio : bool;
  extract_lfps : bool;
  extract_mda : bool;
  extract_time : bool;
  animal_name : string;
  data_path : string;
  dates : list string;
  metadata : pyval;
  output_path : string;
  probes : list pyval;
  nwb_metadata : NWBMetadata;
  parallel_instances : Z
}.

(** [RawToNWBBuilder(data_path, animal_name, dates, nwb_metadata)] with
    every keyword argument at its default. *)
Definition RawToNWBBuilder_init (data_path animal_name : string)
    (dates : list string) (nwb_metadata : NWBMetadata) : RawToNWBBuilder :=
  {| extract_analog := false;
     extract_spikes := false;
     extract_dio := true;
     extract_lfps := false;
     extract_mda := true;
     extract_time := true;
     animal_name := animal_name;
     data_path := data_path;
     dates := dates;
     metadata := md_metadata nwb_metadata;
     output_path := "";
     probes := md_probes nwb_metadata;
     nwb_metadata := nwb_metadata;
     parallel_instances := 4 |}.

(** The arguments of one call of [extract_trodes_rec_file]. *)
Record extract_args := {
  ea_data_path : string;
  ea_animal_name : string;
  ea_parallel_instances : Z;
  ea_extract_analog : bool;
  ea_extract_dio : bool;
  ea_extract_time : bool;
  ea_extract_mda : bool;
  ea_extract_lfps : bool;
  ea_extract_spikes : bool
}.

(** Modelled from the spec: the constructor of [NWBFileBuilder]
    ([src/datamigration/nwb_file_builder.py]) keeps its seven keyword
    arguments; the container builder is "constructed per date with
    (data_path, subject_id, date, metadata, output_file, process_mda,
    process_dio)". *)
Record NWBFileBuilder := {
  b_data_path : string;
  b_animal_name : string;
  b_date : string;
  b_nwb_metadata : NWBMetadata;
  b_output_file : string;
  b_process_mda : bool;
  b_process_dio : bool
}.

(** [os.path.exists]. *)
Definition os_path_exists (p : string) (fs : filesystem) : bool :=
  match fs !! p with
  | Some _ => true
  | None => false
  end.

(** [q] is [p] or lies below it. *)
Definition is_under (p q : string) : bool :=
  (String.eqb q p || String.prefix (p +:+ "/") q)%bool.

Definition remove_tree (p : string) (fs : filesystem) : filesystem :=
  filter (fun kv => is_under p (fst kv) = false) fs.

Section Orchestrator.

(** The content object that [NWBFileBuilder.build] returns. *)
Variable Content : Type.

(** The collaborators: the extractor of [rec_to_binaries] and the two
    methods of [NWBFileBuilder].  Each maps the file system it finds to
    its outcome and the file system it leaves. *)
Variable extract_trodes_rec_file :
  extract_args -> filesystem -> result unit * filesystem.
Variable NWBFileBuilder_build :
  NWBFileBuilder -> filesystem -> result Content * filesystem.
Variable NWBFileBuilder_write :
  NWBFileBuilder -> Content -> filesystem -> result unit * filesystem.

(** One entry per collaborator call, in call order; a build is recorded
    with its outcome. *)
Inductive call :=
| CallExtract (args : extract_args)
| CallBuild (b : NWBFileBuilder) (r : result Content)
| CallWrite (b : NWBFileBuilder) (content : Content).

Record host := {
  fs : filesystem;
  calls : list call
}.

Definition call_extract (args : extract_args) : M host unit :=
  fun h =>
    let '(r, fs') := extract_trodes_rec_file args (fs h) in
    (r, {| fs := fs'; calls := calls h ++ [CallExtract args] |}).

Definition call_build (b : NWBFileBuilder) : M host Content :=
  fun h =>
    let '(r, fs') := NWBFileBuilder_build b (fs h) in
    (r, {| fs := fs'; calls := calls h ++ [CallBuild b r] |}).

Definition call_write (b : NWBFileBuilder) (content : Content) : M host unit :=
  fun h =>
    let '(r, fs') := NWBFileBuilder_write b content (fs h) in
    (r, {| fs := fs'; calls := calls h ++ [CallWrite b content] |}).

(** [shutil.rmtree]: removes a directory and all below it; raises on a
    path that is missing or is not a directory. *)
Definition shutil_rmtree (p : string) : M host unit :=
  fun h =>
    match fs h !! p with
    | Some Dir => (Ok tt, {| fs := remove_tree p (fs h); calls := calls h |})
    | Some File => (Raise NotADirectoryError, h)
    | None => (Raise FileNotFoundError, h)
    end.

Definition preprocess_args (self : RawToNWBBuilder) : extract_args :=
  {| ea_data_path := data_path self;
     ea_animal_name := animal_name self;
     ea_parallel_instances := parallel_instances self;
     ea_extract_analog := extract_analog self;
     ea_extract_dio := extract_dio self;
     ea_extract_time := extract_time self;
     ea_extract_mda := extract_mda self;
     ea_extract_lfps := extract_lfps self;
     ea_extract_spikes := extract_spikes self |}.

Definition __preprocess_data (self : RawToNWBBuilder) : M host unit :=
  call_extract (preprocess_args self).

(** The [NWBFileBuilder(...)] expression in the loop of [build_nwb]. *)
Definition builder_for (self : RawToNWBBuilder) (date : string) : NWBFileBuilder :=
  {| b_data_path := data_path self;
     b_animal_name := animal_name self;
     b_date := date;
     b_nwb_metadata := nwb_metadata self;
     b_output_file := output_path self +:+ animal_name self +:+ date +:+ ".nwb";
     b_process_mda := extract_mda self;
     b_process_dio := extract_dio self |}.

(** The [for] loop of [build_nwb].  [content] is the local variable:
    [None] while it is unbound. *)
Fixpoint build_nwb_loop (self : RawToNWBBuilder) (ds : list string)
    (content : option Content) : M host (option Content) :=
  match ds with
  | [] => ret content
  | date :: rest =>
      let nwb_builder := builder_for self date in
      content <- call_build nwb_builder ;;
      _ <- call_write nwb_builder content ;;
      build_nwb_loop self rest (Some content)
  end.

Definition build_nwb (self : RawToNWBBuilder) : M host Content :=
  _ <- __preprocess_data self ;;
  content <- build_nwb_loop self (dates self) None ;;
  match content with
  | Some c => ret c
  | None => raise UnboundLocalError
  end.

Definition preprocessing_dir (self : RawToNWBBuilder) : string :=
  data_path self +:+ "/" +:+ animal_name self +:+ "/preprocessing".

Definition cleanup (self : RawToNWBBuilder) : M host unit :=
  let preprocessing := preprocessing_dir self in
  fun h =>
    if os_path_exists preprocessing (fs h)
    then shutil_rmtree preprocessing h
    else (Ok tt, h).

End Orchestrator.

Arguments CallExtract {Content} args.
Arguments CallBuild {Content} b r.
Arguments CallWrite {Content} b content.
Arguments fs {Content} h.
Arguments calls {Content} h.

(** ** Reference inputs *)

(** The reads as their docstrings describe them ("Returns video
    timestamps in unix time ...", "Returns the index of video frames"):
    the reader is called on the joined path and the two subscripts are
    applied to what it returns.  They are the test doubles used below
    wherever a read has to find, or miss, a file. *)
Module Intended.

Definition read_field (reader : pyval -> result pyval)
    (self : FlVideoFilesExtractor) (video_file : pyval)
    (suffix field : string) : M io pyval :=
  name <- lift (getitem video_file "name") ;;
  stem <- lift (slice_drop_last4 name) ;;
  file <- lift (add_str stem suffix) ;;
  extracted <- call_reader reader (PStr (os_path_join (raw_data_path self) file)) ;;
  data <- lift (getitem extracted "data") ;;
  lift (getitem data field).

Definition read_video_timestamps_hw_sync reader self video_file : M io pyval :=
  read_field reader self video_file "videoTimeStamps.cameraHWSync" "HWTimestamp".

Definition read_video_timestamps_hw_framecount reader self video_file : M io pyval :=
  read_field reader self video_file "videoTimeStamps.cameraHWFrameCount" "frameCount".

Definition get_timestamps reader self video_file : M io pyval :=
  _get_timestamps_with
    (read_video_timestamps_hw_sync reader self)
    (read_video_timestamps_hw_framecount reader self)
    (_convert_timestamps self)
    self video_file.

End Intended.

(** A reader over a directory listing: the extracted record stored at a
    path, [FileNotFoundError] for a path that is not listed. *)
Definition reader_of (disk : list (string * pyval)) (arg : pyval) : result pyval :=
  match arg with
  | PStr p =>
      match assoc p disk with
      | Some v => Ok v
      | None => Raise FileNotFoundError
      end
  | _ => Raise TypeError
  end.

Definition camA : pyval :=
  PDict [("name", PStr "camA.mp4"); ("camera_id", PInt 7)].

Definition camB : pyval :=
  PDict [("name", PStr "camB.h264"); ("camera_id", PInt 9)].

Definition disk_synced : list (string * pyval) :=
  [("/data/camAvideoTimeStamps.cameraHWSync",
    PDict [("data",
            PDict [("HWTimestamp", PArray (IntArray [1000000000; 2000000000]))])])].

Definition disk_legacy : list (string * pyval) :=
  [("/data/camAvideoTimeStamps.cameraHWFrameCount",
    PDict [("data", PDict [("frameCount", PArray (IntArray [0; 1; 2]))])])].

Definition extractor_on (streams : list pyval) (convert with_timestamps : bool)
    : FlVideoFilesExtractor :=
  {| raw_data_path := "/data";
     video_files_metadata := streams;
     convert_timestamps := convert;
     return_timestamps := with_timestamps |}.

(** A stream entry that has both keys the extractor subscripts. *)
Definition well_formed (video_file : pyval) : bool :=
  (is_Ok (getitem video_file "name") && is_Ok (getitem video_file "camera_id"))%bool.

(** The record appended for [video_file]: its name, some timestamps,
    its camera id. *)
Definition record_for (self : FlVideoFilesExtractor) (video_file rec : pyval) : Prop :=
  exists name timestamps device,
    getitem video_file "name" = Ok name /\
    getitem video_file "camera_id" = Ok device /\
    (return_timestamps self = false -> timestamps = PArray (FloatArray [])) /\
    rec = PDict [("name", name); ("timestamps", timestamps); ("device", device)].

(** The calls one date contributes when its build returns [content]:
    the build, then the write of what the build returned. *)
Definition date_calls {Content} (self : RawToNWBBuilder)
    (dc : string * Content) : list (call Content) :=
  let nwb_builder := builder_for self (fst dc) in
  [CallBuild nwb_builder (Ok (snd dc)); CallWrite nwb_builder (snd dc)].

Definition dates_calls {Content} (self : RawToNWBBuilder)
    (dcs : list (string * Content)) : list (call Content) :=
  flat_map (date_calls self) dcs.

(** The calls of the preprocessing step. *)
Definition is_extract {Content} (c : call Content) : bool :=
  match c with
  | CallExtract _ => true
  | _ => false
  end.

(** Collaborators that never raise. *)
Definition never_raise {Content}
    (extract : extract_args -> filesystem -> result unit * filesystem)
    (build : NWBFileBuilder -> filesystem -> result Content * filesystem)
    (write : NWBFileBuilder -> Content -> filesystem -> result unit * filesystem)
    : Prop :=
  (forall args f, is_Ok (fst (extract args f)) = true) /\
  (forall b f, is_Ok (fst (build b f)) = true) /\
  (forall b c f, is_Ok (fst (write b c f)) = true).

(** Test doubles for the collaborators: the extractor creates the
    working directory with one file in it, a build returns a label made
    from the date, a write creates the output file. *)
Definition demo_extract (args : extract_args) (f : filesystem)
    : result unit * filesystem :=
  let dir := ea_data_path args +:+ "/" +:+ ea_animal_name args +:+ "/preprocessing" in
  (Ok tt, <[dir +:+ "/a.dat" := File]> (<[dir := Dir]> f)).

Definition demo_build (b : NWBFileBuilder) (f : filesystem)
    : result string * filesystem :=
  (Ok ("content " +:+ b_date b), f).

Definition demo_write (b : NWBFileBuilder) (content : string) (f : filesystem)
    : result unit * filesystem :=
  (Ok tt, <[b_output_file b := File]> f).

Definition demo_metadata : NWBMetadata :=
  {| md_metadata := PDict []; md_probes := [] |}.

Definition demo_builder (ds : list string) : RawToNWBBuilder :=
  RawToNWBBuilder_init "/data" "beans" ds demo_metadata.

Definition host0 : host string := {| fs := ∅; calls := [] |}.

(** The state one build over a single date leaves: the working
    directory with a file in it, and the output file. *)
Definition host_after_build : host string :=
  snd (build_nwb string demo_extract demo_build demo_write
         (demo_builder ["20190718"]) host0).

(** The same extractor over another list of entries. *)
Definition with_streams (self : FlVideoFilesExtractor) (streams : list pyval)
    : FlVideoFilesExtractor :=
  {| raw_data_path := raw_data_path self;
     video_files_metadata := streams;
     convert_timestamps := convert_timestamps self;
     return_timestamps := return_timestamps self |}.

(** The exception a read of the class ends in: the one of
    [video_file["name"]] if that subscript raises, [TypeError] otherwise. *)
Definition read_error (video_file : pyval) : exn :=
  match getitem video_file "name" with
  | Ok _ => TypeError
  | Raise e => e
  end.

(** Entries that lack a key. *)
Definition cam_without_id : pyval := PDict [("name", PStr "camC.mp4")].

Definition cam_without_name : pyval := PDict [("camera_id", PInt 3)].

(** Collaborators that raise: the extractor always, a build or a write
    on one date. *)
Definition failing_extract (args : extract_args) (f : filesystem)
    : result unit * filesystem :=
  (Raise (OtherException "ExtractionError"), f).



(** ** Properties of the extractor *)

Lemma is_FileNotFoundError_true e :
  is_FileNotFoundError e = true <-> e = FileNotFoundError.
Proof. destruct e; simpl; split; intros H; congruence. Qed.

Section ExtractorFacts.

Variable reader : pyval -> result pyval.
Variable self : FlVideoFilesExtractor.

(** Both reads stop at the subscript on the joined path: they raise
    before the reader is called and never raise [FileNotFoundError]. *)
Lemma read_hw_sync_raises video_file st :
  exists e, _read_video_timestamps_hw_sync reader self video_file st = (Raise e, st)
            /\ is_FileNotFoundError e = false
            /\ (is_Ok (getitem video_file "name") = true -> e = TypeError).
Proof.
  unfold _read_video_timestamps_hw_sync, bind, lift.
  destruct (getitem video_file "name") as [name|e] eqn:Hname.
  - destruct name as [| z | f | s | a | d]; simpl;
      try (exists TypeError; repeat split; reflexivity).
  - destruct video_file as [| z | f | s | a | d]; simpl in Hname;
      try (injection Hname as <-; eexists; repeat split; try reflexivity; discriminate).
    destruct (assoc "name" d); [discriminate|].
    injection Hname as <-. eexists; repeat split; try reflexivity; discriminate.
Qed.

Lemma read_hw_framecount_raises video_file st :
  exists e, _read_video_timestamps_hw_framecount reader self video_file st = (Raise e, st)
            /\ is_FileNotFoundError e = false
            /\ (is_Ok (getitem video_file "name") = true -> e = TypeError).
Proof.
  unfold _read_video_timestamps_hw_framecount, bind, lift.
  destruct (getitem video_file "name") as [name|e] eqn:Hname.
  - destruct name as [| z | f | s | a | d]; simpl;
      try (exists TypeError; repeat split; reflexivity).
  - destruct video_file as [| z | f | s | a | d]; simpl in Hname;
      try (injection Hname as <-; eexists; repeat split; try reflexivity; discriminate).
    destruct (assoc "name" d); [discriminate|].
    injection Hname as <-. eexists; repeat split; try reflexivity; discriminate.
Qed.

End ExtractorFacts.

(** The argument of the log line is computed without effects and
    without a [FileNotFoundError]. *)
Lemma stem_of_outcome video_file st :
  (exists stem, stem_of video_file st = (Ok stem, st)) \/
  (exists e, stem_of video_file st = (Raise e, st) /\ is_FileNotFoundError e = false).
Proof.
  unfold stem_of, bind, lift.
  destruct (getitem video_file "name") as [name|e] eqn:Hname.
  - destruct name; simpl; eauto.
  - right. exists e. split; [reflexivity|].
    destruct video_file as [| z | f | s | a | d]; simpl in Hname;
      try (injection Hname as <-; reflexivity).
    destruct (assoc "name" d); [discriminate|].
    injection Hname as <-. reflexivity.
Qed.

(** What the handler of [_get_timestamps] does with each outcome of the
    hardware-sync read. *)
Lemma get_timestamps_with_raise read_hw read_fc convert self video_file st e st1 :
  read_hw video_file st = (Raise e, st1) ->
  is_FileNotFoundError e = false ->
  _get_timestamps_with read_hw read_fc convert self video_file st = (Raise e, st1).
Proof.
  intros Hhw He. unfold _get_timestamps_with, bind, try_except.
  rewrite Hhw, He. reflexivity.
Qed.

Lemma get_timestamps_with_fallback_raise
    read_hw read_fc convert self video_file st st1 e2 st2 :
  read_hw video_file st = (Raise FileNotFoundError, st1) ->
  read_fc video_file st1 = (Raise e2, st2) ->
  _get_timestamps_with read_hw read_fc convert self video_file st = (Raise e2, st2).
Proof.
  intros Hhw Hfc. unfold _get_timestamps_with, bind, try_except.
  rewrite Hhw. simpl. rewrite Hfc. reflexivity.
Qed.

Lemma get_timestamps_with_no_fallback
    read_hw read_fc read_fc' convert self video_file st :
  (forall st1, read_hw video_file st <> (Raise FileNotFoundError, st1)) ->
  _get_timestamps_with read_hw read_fc convert self video_file st =
  _get_timestamps_with read_hw read_fc' convert self video_file st.
Proof.
  intros Hhw. unfold _get_timestamps_with, bind, try_except.
  destruct (read_hw video_file st) as [[v|e] st1] eqn:E.
  - destruct (stem_of_outcome video_file st1) as [[stem ->]|[e [-> He]]].
    + reflexivity.
    + rewrite He. reflexivity.
  - destruct (is_FileNotFoundError e) eqn:He; [|reflexivity].
    apply is_FileNotFoundError_true in He. subst e.
    exfalso. exact (Hhw st1 eq_refl).
Qed.

(** With a read that succeeds, the rest of [_get_timestamps] logs the
    path taken and converts exactly on the hardware-sync path with the
    flag set. *)
Lemma get_timestamps_with_synced read_hw read_fc convert self video_file st v st1 stem :
  read_hw video_file st = (Ok v, st1) ->
  stem_of video_file st1 = (Ok stem, st1) ->
  _get_timestamps_with read_hw read_fc convert self video_file st =
  let st2 := {| reads := reads st1;
                infos := infos st1 ++ [("Loaded cameraHWSync timestamps for {}", stem)] |} in
  if convert_timestamps self then convert v st2 else (Ok v, st2).
Proof.
  intros Hhw Hstem. unfold _get_timestamps_with, bind, try_except.
  rewrite Hhw, Hstem. simpl. destruct (convert_timestamps self); reflexivity.
Qed.

Lemma get_timestamps_with_legacy read_hw read_fc convert self video_file st st1 v st2 stem :
  read_hw video_file st = (Raise FileNotFoundError, st1) ->
  read_fc video_file st1 = (Ok v, st2) ->
  stem_of video_file st2 = (Ok stem, st2) ->
  _get_timestamps_with read_hw read_fc convert self video_file st =
  (Ok v, {| reads := reads st2;
            infos := infos st2 ++
                     [("Loaded cameraHWFrameCount for {} (old dataset)", stem)] |}).
Proof.
  intros Hhw Hfc Hstem. unfold _get_timestamps_with, bind, try_except.
  rewrite Hhw. simpl. rewrite Hfc, Hstem. reflexivity.
Qed.

(** [_get_timestamps] of the class always raises, with nothing read and
    nothing logged. *)
Lemma get_timestamps_raises reader self video_file st :
  exists e, _get_timestamps reader self video_file st = (Raise e, st)
            /\ is_FileNotFoundError e = false
            /\ (is_Ok (getitem video_file "name") = true -> e = TypeError).
Proof.
  destruct (read_hw_sync_raises reader self video_file st) as (e & Hhw & He & Hty).
  exists e. split; [|split; assumption].
  unfold _get_timestamps. apply get_timestamps_with_raise; assumption.
Qed.

(** What a successful run of the loop has appended. *)
Lemma extract_loop_ok reader self video_files :
  forall extracted st recs st',
    extract_loop reader self video_files extracted st = (Ok recs, st') ->
    exists new, recs = extracted ++ new /\ Forall2 (record_for self) video_files new.
Proof.
  induction video_files as [|video_file rest IH]; intros extracted st recs st' H.
  - injection H as <- _. exists []. split; [symmetry; apply app_nil_r | constructor].
  - simpl in H. unfold bind, lift in H.
    destruct (return_timestamps self) eqn:Hrt.
    + destruct (get_timestamps_raises reader self video_file st) as (e & Hraise & _).
      rewrite Hraise in H. discriminate.
    + unfold ret in H at 1.
      destruct (getitem video_file "name") as [name|] eqn:Hname; [|discriminate].
      destruct (getitem video_file "camera_id") as [device|] eqn:Hdev; [|discriminate].
      apply IH in H. destruct H as (new & -> & Hnew).
      eexists (_ :: new). split.
      * rewrite <- app_assoc. reflexivity.
      * constructor; [|exact Hnew].
        exists name, (PArray (FloatArray [])), device. repeat split; assumption.
Qed.

(** Without timestamp retrieval the loop leaves the state alone and
    succeeds on well-formed entries. *)
Lemma extract_loop_quiet reader self video_files :
  return_timestamps self = false ->
  forall extracted st,
    snd (extract_loop reader self video_files extracted st) = st /\
    (forallb well_formed video_files = true ->
     is_Ok (fst (extract_loop reader self video_files extracted st)) = true).
Proof.
  intros Hrt. induction video_files as [|video_file rest IH]; intros extracted st.
  - split; reflexivity.
  - simpl. unfold bind, lift. rewrite Hrt. unfold ret at 1. unfold well_formed.
    destruct (getitem video_file "name") as [name|]; simpl; [|split; [reflexivity|discriminate]].
    destruct (getitem video_file "camera_id") as [device|]; simpl;
      [|split; [reflexivity|discriminate]].
    apply IH.
Qed.

(** C3: for a stream entry whose name is a string, both reads subscript
    the joined path string, so each raises [TypeError] with the state
    untouched (the reader has not been called); [_get_timestamps] raises
    the same [TypeError], which its [FileNotFoundError] handler lets
    through, so the frame-count branch is never entered; with timestamp
    retrieval enabled the loop of [extract_video_files] stops there. *)
Theorem misplaced_subscript_raises_before_reading
    (reader : pyval -> result pyval) (self : FlVideoFilesExtractor)
    (video_file : pyval) (s : string) (st : io) :
  getitem video_file "name" = Ok (PStr s) ->
  _read_video_timestamps_hw_sync reader self video_file st = (Raise TypeError, st) /\
  _read_video_timestamps_hw_framecount reader self video_file st = (Raise TypeError, st) /\
  _get_timestamps reader self video_file st = (Raise TypeError, st) /\
  (return_timestamps self = true ->
   forall rest extracted,
     extract_loop reader self (video_file :: rest) extracted st = (Raise TypeError, st)).
Proof.
  intros Hstr.
  assert (Hname : is_Ok (getitem video_file "name") = true) by (rewrite Hstr; reflexivity).
  destruct (read_hw_sync_raises reader self video_file st) as (e1 & H1 & _ & T1).
  destruct (read_hw_framecount_raises reader self video_file st) as (e2 & H2 & _ & T2).
  destruct (get_timestamps_raises reader self video_file st) as (e3 & H3 & _ & T3).
  rewrite (T1 Hname) in H1. rewrite (T2 Hname) in H2. rewrite (T3 Hname) in H3.
  repeat split; try assumption.
  intros Hrt rest extracted. simpl. unfold bind. rewrite Hrt, H3. reflexivity.
Qed.

Lemma misplaced_subscript_raises_before_reading_witness :
  getitem camA "name" = Ok (PStr "camA.mp4") /\
  _get_timestamps (reader_of disk_synced) (extractor_on [camA] true true) camA io0
  = (Raise TypeError, io0) /\
  extract_loop (reader_of disk_synced) (extractor_on [camA] true true) [camA] [] io0
  = (Raise TypeError, io0).
Proof.
  pose proof (misplaced_subscript_raises_before_reading
                (reader_of disk_synced) (extractor_on [camA] true true) camA
                "camA.mp4" io0 eq_refl) as (_ & _ & Hget & Hloop).
  split; [reflexivity|]. split; [exact Hget|]. exact (Hloop eq_refl [] []).
Defined.

(** C4: in [_get_timestamps], whatever the two reads do: an exception of
    the hardware-sync read other than [FileNotFoundError] reaches the
    caller as it is; after a [FileNotFoundError] an exception of the
    frame-count read (a missing file included) reaches the caller as it
    is; and unless the hardware-sync read raised [FileNotFoundError] the
    frame-count read plays no part in the outcome. *)
Theorem fallback_only_on_file_not_found
    (read_hw read_fc : pyval -> M io pyval) (convert : pyval -> M io pyval)
    (self : FlVideoFilesExtractor) (video_file : pyval) (st : io) :
  (forall e st1,
     read_hw video_file st = (Raise e, st1) ->
     e <> FileNotFoundError ->
     _get_timestamps_with read_hw read_fc convert self video_file st = (Raise e, st1)) /\
  (forall st1 e2 st2,
     read_hw video_file st = (Raise FileNotFoundError, st1) ->
     read_fc video_file st1 = (Raise e2, st2) ->
     _get_timestamps_with read_hw read_fc convert self video_file st = (Raise e2, st2)) /\
  (forall read_fc',
     (forall st1, read_hw video_file st <> (Raise FileNotFoundError, st1)) ->
     _get_timestamps_with read_hw read_fc convert self video_file st =
     _get_timestamps_with read_hw read_fc' convert self video_file st).
Proof.
  split; [|split].
  - intros e st1 Hhw Hne. apply get_timestamps_with_raise; [exact Hhw|].
    destruct (is_FileNotFoundError e) eqn:He; [|reflexivity].
    apply is_FileNotFoundError_true in He. contradiction.
  - intros st1 e2 st2. apply get_timestamps_with_fallback_raise.
  - intros read_fc'. apply get_timestamps_with_no_fallback.
Qed.

Lemma fallback_only_on_file_not_found_witness :
  (* a hardware-sync read that raises something else: the class's own *)
  _get_timestamps (reader_of disk_legacy) (extractor_on [camA] true true) camA io0
  = (Raise TypeError, io0) /\
  (* neither file listed: the second [FileNotFoundError] reaches the caller *)
  fst (Intended.get_timestamps (reader_of []) (extractor_on [camA] true true) camA io0)
  = Raise FileNotFoundError /\
  (* hardware-sync file listed: the frame-count read is irrelevant *)
  Intended.get_timestamps (reader_of disk_synced) (extractor_on [camA] true true) camA io0
  = _get_timestamps_with
      (Intended.read_video_timestamps_hw_sync (reader_of disk_synced)
         (extractor_on [camA] true true))
      (fun _ => raise (OtherException "unused"))
      (_convert_timestamps (extractor_on [camA] true true))
      (extractor_on [camA] true true) camA io0.
Proof.
  split; [|split].
  - unfold _get_timestamps.
    refine (proj1 (fallback_only_on_file_not_found _ _ _ _ camA io0)
              TypeError io0 _ _); [reflexivity | discriminate].
  - unfold Intended.get_timestamps.
    rewrite (proj1 (proj2 (fallback_only_on_file_not_found _ _ _ _ camA io0))
               {| reads := [PStr "/data/camAvideoTimeStamps.cameraHWSync"]; infos := [] |}
               FileNotFoundError
               {| reads := [PStr "/data/camAvideoTimeStamps.cameraHWSync";
                            PStr "/data/camAvideoTimeStamps.cameraHWFrameCount"];
                  infos := [] |}
               eq_refl eq_refl).
    reflexivity.
  - unfold Intended.get_timestamps.
    apply (proj2 (proj2 (fallback_only_on_file_not_found _ _ _ _ camA io0))).
    intros st1. vm_compute. discriminate.
Defined.

(** C1 at the spec's own example (hardware-sync file present with
    [HWTimestamp = [1000000000, 2000000000]]): for either value of
    [convert_timestamps], [extract_video_files] raises [TypeError] with
    nothing read and returns no record.  With the subscripts applied to
    the reader's result the same [_get_timestamps] body yields the values
    divided by 10^9, respectively the raw values. *)
Theorem hw_sync_stream_extract_raises :
  (forall convert : bool,
     extract_video_files (reader_of disk_synced) (extractor_on [camA] convert true) io0
     = (Raise TypeError, io0)) /\
  fst (Intended.get_timestamps (reader_of disk_synced)
         (extractor_on [camA] true true) camA io0)
  = Ok (PArray (FloatArray [1%float; 2%float])) /\
  fst (Intended.get_timestamps (reader_of disk_synced)
         (extractor_on [camA] false true) camA io0)
  = Ok (PArray (IntArray [1000000000; 2000000000])).
Proof.
  split; [|split].
  - intros [|]; vm_compute; reflexivity.
  - vm_compute. reflexivity.
  - vm_compute. reflexivity.
Qed.

(** C2 at the spec's own example (hardware-sync file absent, frame-count
    file present with [frameCount = [0, 1, 2]]): for either value of
    [convert_timestamps], [extract_video_files] raises [TypeError] with
    nothing read and returns no record.  With the subscripts applied to
    the reader's result the same [_get_timestamps] body yields the raw
    frame counts for both values of the flag. *)
Theorem frame_count_stream_extract_raises :
  (forall convert : bool,
     extract_video_files (reader_of disk_legacy) (extractor_on [camA] convert true) io0
     = (Raise TypeError, io0)) /\
  (forall convert : bool,
     fst (Intended.get_timestamps (reader_of disk_legacy)
            (extractor_on [camA] convert true) camA io0)
     = Ok (PArray (IntArray [0; 1; 2]))).
Proof.
  split; intros [|]; vm_compute; reflexivity.
Qed.

Lemma record_for_timestamps self video_files new :
  return_timestamps self = false ->
  Forall2 (record_for self) video_files new ->
  Forall (fun rec => getitem rec "timestamps" = Ok (PArray (FloatArray []))) new.
Proof.
  intros Hrt H. induction H as [|video_file rec rest new' Hrec _ IH]; constructor.
  - destruct Hrec as (name & timestamps & device & _ & _ & Hts & ->).
    rewrite (Hts Hrt). reflexivity.
  - exact IH.
Qed.

(** C8: with [return_timestamps] false, [extract_video_files] leaves the
    state as it found it (the reader is not called, nothing is logged);
    every record it returns has the empty array as its timestamps, one
    record per entry; and it does return when every entry has the keys
    [name] and [camera_id]. *)
Theorem disabled_timestamps_no_file_access
    (reader : pyval -> result pyval) (self : FlVideoFilesExtractor) (st : io) :
  return_timestamps self = false ->
  snd (extract_video_files reader self st) = st /\
  (forall recs,
     fst (extract_video_files reader self st) = Ok recs ->
     Forall (fun rec => getitem rec "timestamps" = Ok (PArray (FloatArray []))) recs /\
     length recs = length (video_files_metadata self)) /\
  (forallb well_formed (video_files_metadata self) = true ->
   is_Ok (fst (extract_video_files reader self st)) = true).
Proof.
  intros Hrt. unfold extract_video_files.
  destruct (extract_loop_quiet reader self (video_files_metadata self) Hrt [] st)
    as [Hst Hok].
  split; [exact Hst|]. split; [|exact Hok].
  intros recs Hrecs.
  destruct (extract_loop reader self (video_files_metadata self) [] st)
    as [r st'] eqn:E.
  simpl in Hrecs. subst r.
  apply extract_loop_ok in E. destruct E as (new & -> & Hnew). simpl.
  split.
  - eapply record_for_timestamps; eassumption.
  - symmetry. eapply Forall2_length. exact Hnew.
Qed.

Lemma disabled_timestamps_no_file_access_witness :
  return_timestamps (extractor_on [camA; camB] true false) = false /\
  snd (extract_video_files (reader_of disk_synced)
         (extractor_on [camA; camB] true false) io0) = io0 /\
  is_Ok (fst (extract_video_files (reader_of disk_synced)
                (extractor_on [camA; camB] true false) io0)) = true.
Proof.
  pose proof (disabled_timestamps_no_file_access (reader_of disk_synced)
                (extractor_on [camA; camB] true false) io0 eq_refl)
    as (Hst & _ & Hok).
  split; [reflexivity|]. split; [exact Hst | exact (Hok eq_refl)].
Defined.

(** C9: when [extract_video_files] returns, the records correspond to the
    entries of [video_files_metadata] one to one and in order, and each
    record's [name] is its entry's [name] and its [device] is its entry's
    [camera_id]. *)
Theorem extract_preserves_order_and_fields
    (reader : pyval -> result pyval) (self : FlVideoFilesExtractor)
    (st : io) (recs : list pyval) (st' : io) :
  extract_video_files reader self st = (Ok recs, st') ->
  Forall2
    (fun video_file rec =>
       getitem rec "name" = getitem video_file "name" /\
       getitem rec "device" = getitem video_file "camera_id")
    (video_files_metadata self) recs.
Proof.
  intros H. unfold extract_video_files in H.
  apply extract_loop_ok in H. destruct H as (new & -> & Hnew). simpl.
  eapply Forall2_impl; [exact Hnew|].
  intros video_file rec (name & timestamps & device & Hname & Hdev & _ & ->).
  rewrite Hname, Hdev. split; reflexivity.
Qed.

Lemma extract_preserves_order_and_fields_witness :
  Forall2
    (fun video_file rec =>
       getitem rec "name" = getitem video_file "name" /\
       getitem rec "device" = getitem video_file "camera_id")
    [camA; camB]
    [PDict [("name", PStr "camA.mp4"); ("timestamps", PArray (FloatArray []));
            ("device", PInt 7)];
     PDict [("name", PStr "camB.h264"); ("timestamps", PArray (FloatArray []));
            ("device", PInt 9)]].
Proof.
  exact (extract_preserves_order_and_fields (reader_of disk_synced)
           (extractor_on [camA; camB] true false) io0 _ io0 eq_refl).
Defined.

(** ** Properties of the orchestrator *)

Lemma dates_calls_no_extract {Content} self (dcs : list (string * Content)) :
  Forall (fun c => is_extract c = false) (dates_calls self dcs).
Proof.
  induction dcs as [|dc dcs IH]; simpl.
  - constructor.
  - repeat constructor. exact IH.
Qed.

Section OrchestratorFacts.

Variable Content : Type.
Variable extract : extract_args -> filesystem -> result unit * filesystem.
Variable build : NWBFileBuilder -> filesystem -> result Content * filesystem.
Variable write : NWBFileBuilder -> Content -> filesystem -> result unit * filesystem.

Local Abbreviation loop := (build_nwb_loop Content build write).
Local Abbreviation run_build := (build_nwb Content extract build write).

(** The calls of the loop: build and write of each date in turn, up to
    the first call that raises. *)
Lemma build_nwb_loop_calls self ds :
  forall content h,
  exists cs tail,
    calls (snd (loop self ds content h))
    = calls h ++ dates_calls self (zip ds cs) ++ tail /\
    (length cs <= length ds)%nat /\
    (tail = [] \/
     exists d e, ds !! length cs = Some d /\
                 tail = [CallBuild (builder_for self d) (Raise e)]) /\
    (is_Ok (fst (loop self ds content h)) = true ->
     length cs = length ds /\ tail = []).
Proof.
  induction ds as [|d rest IH]; intros content h.
  - exists [], []. simpl. rewrite app_nil_r. repeat split; auto.
  - simpl. unfold bind, call_build.
    destruct (build (builder_for self d) (fs h)) as [[c|e] f1] eqn:Eb.
    + unfold call_write; simpl.
      destruct (write (builder_for self d) c f1) as [[u|e] f2] eqn:Ew.
      * simpl.
        match goal with
        | |- context [loop self rest (Some c) ?h2] =>
            destruct (IH (Some c) h2) as (cs & tail & Hcalls & Hlen & Htail & Hok)
        end.
        exists (c :: cs), tail. split; [|split; [|split]].
        -- rewrite Hcalls. simpl. rewrite <- !app_assoc. reflexivity.
        -- simpl. lia.
        -- exact Htail.
        -- intros H. apply Hok in H. simpl. split; [lia | tauto].
      * exists [c], []. split; [|split; [|split]].
        -- simpl. rewrite zip_with_nil_r. simpl. rewrite <- !app_assoc. reflexivity.
        -- simpl. lia.
        -- left. reflexivity.
        -- discriminate.
    + exists [], [CallBuild (builder_for self d) (Raise e)]. simpl.
      repeat split; try lia; try discriminate.
      right. exists d, e. split; reflexivity.
Qed.

(** With collaborators that never raise the loop returns. *)
Lemma build_nwb_loop_returns self ds :
  never_raise extract build write ->
  forall content h, is_Ok (fst (loop self ds content h)) = true.
Proof.
  intros (_ & Hb & Hw). induction ds as [|d rest IH]; intros content h.
  - reflexivity.
  - simpl. unfold bind, call_build, call_write.
    pose proof (Hb (builder_for self d) (fs h)) as Hbd.
    destruct (build (builder_for self d) (fs h)) as [[c|e] f1]; [|discriminate].
    simpl.
    pose proof (Hw (builder_for self d) c f1) as Hwd.
    destruct (write (builder_for self d) c f1) as [[u|e] f2]; [|discriminate].
    simpl. apply IH.
Qed.

(** After at least one date, the loop's [content] is what the build of
    the last date returned, and that build and its write are the last
    two calls. *)
Lemma build_nwb_loop_last self ds :
  forall content h o h',
    ds <> [] ->
    loop self ds content h = (Ok o, h') ->
    exists c pre d,
      o = Some c /\ last ds = Some d /\
      calls h' = pre ++ [CallBuild (builder_for self d) (Ok c);
                         CallWrite (builder_for self d) c].
Proof.
  induction ds as [|d rest IH]; intros content h o h' Hne H; [contradiction|].
  simpl in H. unfold bind, call_build, call_write in H.
  destruct (build (builder_for self d) (fs h)) as [[c|e] f1]; [|discriminate].
  simpl in H.
  destruct (write (builder_for self d) c f1) as [[u|e] f2]; [|discriminate].
  simpl in H. destruct rest as [|d2 rest'].
  - simpl in H. injection H as <- <-.
    exists c, (calls h), d. simpl. rewrite <- app_assoc. auto.
  - apply IH in H; [|discriminate].
    destruct H as (c' & pre & d' & -> & Hlast & Hcalls).
    exists c', pre, d'. rewrite last_cons_cons. auto.
Qed.

(** C5: [build_nwb] calls the extractor once, as the first call, for any
    list of dates; after it come, date by date in the order of [dates],
    the build of a date followed directly by the write of what that build
    returned.  The sequence stops at the first call that raises (the
    extractor, a write, or a build, recorded last); with collaborators
    that never raise it covers every date. *)
Theorem build_nwb_call_order (self : RawToNWBBuilder) (h : host Content) :
  exists (cs : list Content) (tail : list (call Content)),
    calls (snd (run_build self h))
    = calls h ++ CallExtract (preprocess_args self)
                 :: dates_calls self (zip (dates self) cs) ++ tail /\
    Forall (fun c => is_extract c = false)
      (dates_calls self (zip (dates self) cs) ++ tail) /\
    (length cs <= length (dates self))%nat /\
    (tail = [] \/
     exists d e, dates self !! length cs = Some d /\
                 tail = [CallBuild (builder_for self d) (Raise e)]) /\
    (never_raise extract build write ->
     length cs = length (dates self) /\ tail = []).
Proof.
  unfold build_nwb, bind, __preprocess_data, call_extract.
  destruct (extract (preprocess_args self) (fs h)) as [[u|e] f1] eqn:Ee.
  - set (h1 := {| fs := f1; calls := calls h ++ [CallExtract (preprocess_args self)] |}).
    destruct (build_nwb_loop_calls self (dates self) None h1)
      as (cs & tail & Hcalls & Hlen & Htail & Hok).
    pose proof (fun H => Hok (build_nwb_loop_returns self (dates self) H None h1)) as Hnr.
    exists cs, tail. split; [|split; [|split; [|split]]]; try assumption.
    + destruct (loop self (dates self) None h1) as [[[c|]|e] h2]; simpl in *;
        rewrite Hcalls, <- app_assoc; reflexivity.
    + apply Forall_app. split; [apply dates_calls_no_extract|].
      destruct Htail as [->|(d & e & _ & ->)]; repeat constructor.
  - exists [], []. rewrite zip_with_nil_r. simpl.
    split; [|split; [|split; [|split]]].
    + reflexivity.
    + constructor.
    + lia.
    + left; reflexivity.
    + intros (Hext & _). specialize (Hext (preprocess_args self) (fs h)).
      rewrite Ee in Hext. discriminate.
Qed.

(** C6: for a non-empty list of dates, the value [build_nwb] returns is
    the content that the build of the last date returned (that build and
    the write of the same content are the last two calls), and with
    collaborators that never raise [build_nwb] does return. *)
Theorem build_nwb_returns_last_content (self : RawToNWBBuilder) (h : host Content) :
  dates self <> [] ->
  (forall c h',
     run_build self h = (Ok c, h') ->
     exists pre d,
       last (dates self) = Some d /\
       calls h' = pre ++ [CallBuild (builder_for self d) (Ok c);
                          CallWrite (builder_for self d) c]) /\
  (never_raise extract build write -> is_Ok (fst (run_build self h)) = true).
Proof.
  intros Hne. unfold build_nwb, bind, __preprocess_data, call_extract.
  destruct (extract (preprocess_args self) (fs h)) as [[u|e] f1] eqn:Ee.
  - set (h1 := {| fs := f1; calls := calls h ++ [CallExtract (preprocess_args self)] |}).
    pose proof (build_nwb_loop_last self (dates self) None h1) as Hlast.
    pose proof (fun H => build_nwb_loop_returns self (dates self) H None h1) as Hret.
    destruct (loop self (dates self) None h1) as [[o|e] h2].
    + destruct (Hlast o h2 Hne eq_refl) as (c & pre & d & -> & Hd & Hcalls).
      split.
      * intros c' h' H. injection H as <- <-. exists pre, d. auto.
      * reflexivity.
    + split; [discriminate|]. exact Hret.
  - split; [discriminate|].
    intros (Hext & _). specialize (Hext (preprocess_args self) (fs h)).
    rewrite Ee in Hext. discriminate.
Qed.

(** C7: with an empty list of dates, [build_nwb] still calls the
    extractor (its one call, and the state it leaves is the extractor's),
    never returns a value, and when the extractor has returned it raises
    [UnboundLocalError]. *)
Theorem build_nwb_empty_dates_unbound (self : RawToNWBBuilder) (h : host Content) :
  dates self = [] ->
  snd (run_build self h) = snd (__preprocess_data Content extract self h) /\
  calls (snd (run_build self h)) = calls h ++ [CallExtract (preprocess_args self)] /\
  is_Ok (fst (run_build self h)) = false /\
  (is_Ok (fst (extract (preprocess_args self) (fs h))) = true ->
   fst (run_build self h) = Raise UnboundLocalError).
Proof.
  intros Hds. unfold build_nwb, bind, __preprocess_data, call_extract.
  rewrite Hds.
  destruct (extract (preprocess_args self) (fs h)) as [[u|e] f1]; simpl;
    repeat split; try reflexivity; discriminate.
Qed.

(** What [shutil.rmtree] leaves: nothing at or below the path, the rest
    as it was. *)
Lemma remove_tree_lookup (p : string) (f : filesystem) (q : string) :
  remove_tree p f !! q = if is_under p q then None else f !! q.
Proof.
  unfold remove_tree. destruct (is_under p q) eqn:E.
  - apply map_lookup_filter_None. right. intros x _. simpl. rewrite E. discriminate.
  - destruct (f !! q) as [x|] eqn:Hq.
    + apply map_lookup_filter_Some. split; [exact Hq | exact E].
    + apply map_lookup_filter_None. left. exact Hq.
Qed.

Lemma is_under_refl (p : string) : is_under p p = true.
Proof. unfold is_under. rewrite String.eqb_refl. reflexivity. Qed.

(** After [cleanup] the working directory is not there, whatever the
    outcome, unless a regular file sits at its path. *)
Lemma cleanup_outcome (self : RawToNWBBuilder) (h : host Content) :
  match fs h !! preprocessing_dir self with
  | Some Dir =>
      cleanup Content self h
      = (Ok tt, {| fs := remove_tree (preprocessing_dir self) (fs h); calls := calls h |})
  | Some File => cleanup Content self h = (Raise NotADirectoryError, h)
  | None => cleanup Content self h = (Ok tt, h)
  end.
Proof.
  unfold cleanup, os_path_exists, shutil_rmtree.
  destruct (fs h !! preprocessing_dir self) as [[|]|]; reflexivity.
Qed.

(** C10: [cleanup] removes the working directory [<data_path>/<animal
    name>/preprocessing] with everything below it and touches nothing
    else when the directory exists; returns with the state unchanged when
    nothing is at that path; a second call leaves the file system as the
    first call left it; and unless a regular file sits at the path, the
    first call and the second both return without raising. *)
Theorem cleanup_removes_and_is_idempotent (self : RawToNWBBuilder) (h : host Content) :
  (fs h !! preprocessing_dir self = Some Dir ->
   fst (cleanup Content self h) = Ok tt /\
   calls (snd (cleanup Content self h)) = calls h /\
   forall q, fs (snd (cleanup Content self h)) !! q
             = if is_under (preprocessing_dir self) q then None else fs h !! q) /\
  (fs h !! preprocessing_dir self = None -> cleanup Content self h = (Ok tt, h)) /\
  snd (cleanup Content self (snd (cleanup Content self h))) = snd (cleanup Content self h) /\
  (fs h !! preprocessing_dir self <> Some File ->
   fst (cleanup Content self h) = Ok tt /\
   fst (cleanup Content self (snd (cleanup Content self h))) = Ok tt).
Proof.
  pose proof (cleanup_outcome self h) as H1.
  destruct (fs h !! preprocessing_dir self) as [[|]|] eqn:Hp.
  - (* a regular file *)
    split; [discriminate|]. split; [discriminate|]. split.
    + rewrite H1. simpl. rewrite H1. reflexivity.
    + intros Hne. contradiction.
  - (* the directory *)
    pose proof (cleanup_outcome self
                  {| fs := remove_tree (preprocessing_dir self) (fs h);
                     calls := calls h |}) as H2.
    simpl in H2. rewrite remove_tree_lookup, is_under_refl in H2.
    rewrite H1. simpl. rewrite H2. simpl.
    split; [|split; [discriminate|split]].
    + intros _. split; [reflexivity|]. split; [reflexivity|].
      intros q. apply remove_tree_lookup.
    + reflexivity.
    + intros _. split; reflexivity.
  - (* nothing there *)
    rewrite H1. simpl. rewrite H1. simpl.
    split; [discriminate|]. split; [reflexivity|]. split; [reflexivity|].
    intros _. split; reflexivity.
Qed.

End OrchestratorFacts.

(** ** The orchestrator on the test doubles *)

Lemma demo_never_raise : never_raise demo_extract demo_build demo_write.
Proof. repeat split. Defined.

Lemma build_nwb_call_order_witness :
  never_raise demo_extract demo_build demo_write /\
  exists cs : list string,
    length cs = 2%nat /\
    calls (snd (build_nwb string demo_extract demo_build demo_write
                  (demo_builder ["20190718"; "20190719"]) host0))
    = CallExtract (preprocess_args (demo_builder ["20190718"; "20190719"]))
        :: dates_calls (demo_builder ["20190718"; "20190719"])
             (zip ["20190718"; "20190719"] cs).
Proof.
  split; [exact demo_never_raise|].
  destruct (build_nwb_call_order string demo_extract demo_build demo_write
              (demo_builder ["20190718"; "20190719"]) host0)
    as (cs & tail & Hcalls & _ & _ & _ & Hfull).
  destruct (Hfull demo_never_raise) as [Hlen Htail].
  exists cs. split; [exact Hlen|].
  rewrite Hcalls, Htail, app_nil_r. reflexivity.
Defined.

Lemma build_nwb_returns_last_content_witness :
  dates (demo_builder ["20190718"; "20190719"]) <> [] /\
  fst (build_nwb string demo_extract demo_build demo_write
         (demo_builder ["20190718"; "20190719"]) host0) = Ok "content 20190719" /\
  exists pre,
    calls (snd (build_nwb string demo_extract demo_build demo_write
                  (demo_builder ["20190718"; "20190719"]) host0))
    = pre ++ [CallBuild (builder_for (demo_builder ["20190718"; "20190719"]) "20190719")
                (Ok "content 20190719");
              CallWrite (builder_for (demo_builder ["20190718"; "20190719"]) "20190719")
                "content 20190719"].
Proof.
  assert (Hne : dates (demo_builder ["20190718"; "20190719"]) <> []) by discriminate.
  split; [exact Hne|]. split; [vm_compute; reflexivity|].
  destruct (proj1 (build_nwb_returns_last_content string demo_extract demo_build
                     demo_write (demo_builder ["20190718"; "20190719"]) host0 Hne)
              "content 20190719"
              (snd (build_nwb string demo_extract demo_build demo_write
                      (demo_builder ["20190718"; "20190719"]) host0)))
    as (pre & d & Hlast & Hcalls).
  - vm_compute. reflexivity.
  - exists pre. injection Hlast as <-. exact Hcalls.
Defined.

Lemma build_nwb_empty_dates_unbound_witness :
  dates (demo_builder []) = [] /\
  fst (build_nwb string demo_extract demo_build demo_write (demo_builder []) host0)
  = Raise UnboundLocalError /\
  calls (snd (build_nwb string demo_extract demo_build demo_write (demo_builder []) host0))
  = [CallExtract (preprocess_args (demo_builder []))].
Proof.
  destruct (build_nwb_empty_dates_unbound string demo_extract demo_build demo_write
              (demo_builder []) host0 eq_refl) as (_ & Hcalls & _ & Hraise).
  split; [reflexivity|]. split; [exact (Hraise eq_refl) | exact Hcalls].
Defined.

Lemma cleanup_removes_and_is_idempotent_witness :
  fs host_after_build !! preprocessing_dir (demo_builder ["20190718"]) = Some Dir /\
  fst (cleanup string (demo_builder ["20190718"]) host_after_build) = Ok tt /\
  fs (snd (cleanup string (demo_builder ["20190718"]) host_after_build))
    !! "/data/beans/preprocessing/a.dat" = None /\
  fs (snd (cleanup string (demo_builder ["20190718"]) host_after_build))
    !! "beans20190718.nwb" = Some File /\
  fst (cleanup string (demo_builder ["20190718"])
         (snd (cleanup string (demo_builder ["20190718"]) host_after_build))) = Ok tt.
Proof.
  assert (Hdir : fs host_after_build !! preprocessing_dir (demo_builder ["20190718"])
                 = Some Dir) by (vm_compute; reflexivity).
  destruct (cleanup_removes_and_is_idempotent string (demo_builder ["20190718"])
              host_after_build) as (Hrm & _ & _ & Hok).
  destruct (Hrm Hdir) as (Hfst & _ & Hlookup).
  split; [exact Hdir|]. split; [exact Hfst|]. split; [|split].
  - rewrite Hlookup. vm_compute. reflexivity.
  - rewrite Hlookup. vm_compute. reflexivity.
  - apply Hok. rewrite Hdir. discriminate.
Defined.

(** ** Further properties of the extractor *)

(** A read of the class ends in [read_error], with the state untouched. *)
Lemma get_timestamps_error reader self video_file st :
  _get_timestamps reader self video_file st = (Raise (read_error video_file), st).
Proof.
  destruct (get_timestamps_raises reader self video_file st) as (e & H & _ & Hty).
  rewrite H. f_equal. f_equal. unfold read_error.
  destruct (getitem video_file "name") as [name|e'] eqn:Hname.
  - apply Hty. reflexivity.
  - unfold _get_timestamps, _get_timestamps_with, _read_video_timestamps_hw_sync,
      bind, try_except, lift in H.
    rewrite Hname in H.
    destruct (is_FileNotFoundError e'); [|congruence].
    unfold _read_video_timestamps_hw_framecount, bind, lift in H.
    rewrite Hname in H. congruence.
Qed.

(** The loop neither touches the state nor depends on the reader. *)
Lemma extract_loop_state_and_reader reader reader' self video_files :
  forall extracted st,
    snd (extract_loop reader self video_files extracted st) = st /\
    extract_loop reader self video_files extracted st
    = extract_loop reader' self video_files extracted st.
Proof.
  induction video_files as [|video_file rest IH]; intros extracted st.
  - split; reflexivity.
  - simpl. unfold bind, lift. destruct (return_timestamps self).
    + rewrite !get_timestamps_error. split; reflexivity.
    + unfold ret.
      destruct (getitem video_file "name") as [name|]; [|split; reflexivity].
      destruct (getitem video_file "camera_id") as [device|]; [|split; reflexivity].
      apply IH.
Qed.

(** X1: for every configuration and every list of entries,
    [extract_video_files] leaves the state as it found it (the reader is
    never called, nothing is logged), and its outcome is the same for any
    two readers: it does not depend on what is on disk. *)
Theorem extract_never_calls_reader
    (reader reader' : pyval -> result pyval) (self : FlVideoFilesExtractor) (st : io) :
  snd (extract_video_files reader self st) = st /\
  extract_video_files reader self st = extract_video_files reader' self st.
Proof.
  unfold extract_video_files. apply extract_loop_state_and_reader.
Qed.

(** X2: with [return_timestamps] true, [extract_video_files] returns only
    on the empty list (the empty list of records); on a non-empty list it
    raises what the read of the first entry raises, whatever the later
    entries are: [KeyError] for a dictionary without [name], [TypeError]
    as soon as [name] is there. *)
Theorem extract_with_timestamps_returns_only_on_empty
    (reader : pyval -> result pyval) (self : FlVideoFilesExtractor) (st : io) :
  return_timestamps self = true ->
  (video_files_metadata self = [] ->
   extract_video_files reader self st = (Ok [], st)) /\
  (forall video_file rest,
     video_files_metadata self = video_file :: rest ->
     extract_video_files reader self st = (Raise (read_error video_file), st)) /\
  (forall d rest,
     video_files_metadata self = PDict d :: rest ->
     fst (extract_video_files reader self st)
     = Raise (match assoc "name" d with Some _ => TypeError | None => KeyError end)).
Proof.
  intros Hrt. unfold extract_video_files. split; [|split].
  - intros ->. reflexivity.
  - intros video_file rest ->. simpl. unfold bind.
    rewrite Hrt, get_timestamps_error. reflexivity.
  - intros d rest ->. simpl. unfold bind.
    rewrite Hrt, get_timestamps_error. simpl. unfold read_error. simpl.
    destruct (assoc "name" d); reflexivity.
Qed.

Lemma extract_with_timestamps_returns_only_on_empty_witness :
  return_timestamps (extractor_on [cam_without_name; camA] true true) = true /\
  extract_video_files (reader_of disk_synced) (extractor_on [] true true) io0
  = (Ok [], io0) /\
  fst (extract_video_files (reader_of disk_synced)
         (extractor_on [cam_without_name; camA] true true) io0) = Raise KeyError /\
  fst (extract_video_files (reader_of disk_synced)
         (extractor_on [camA; cam_without_name] true true) io0) = Raise TypeError.
Proof.
  split; [reflexivity|]. split; [|split].
  - exact (proj1 (extract_with_timestamps_returns_only_on_empty (reader_of disk_synced)
                    (extractor_on [] true true) io0 eq_refl) eq_refl).
  - exact (proj2 (proj2 (extract_with_timestamps_returns_only_on_empty
                           (reader_of disk_synced)
                           (extractor_on [cam_without_name; camA] true true) io0 eq_refl))
             _ _ eq_refl).
  - exact (proj2 (proj2 (extract_with_timestamps_returns_only_on_empty
                           (reader_of disk_synced)
                           (extractor_on [camA; cam_without_name] true true) io0 eq_refl))
             _ _ eq_refl).
Defined.

(** Without timestamps, well-formed entries are passed over. *)
Lemma extract_loop_skip_good reader self good :
  return_timestamps self = false ->
  forallb well_formed good = true ->
  forall rest extracted st,
  exists extracted',
    extract_loop reader self (good ++ rest) extracted st
    = extract_loop reader self rest extracted' st.
Proof.
  intros Hrt. induction good as [|video_file good IH]; intros Hgood rest extracted st.
  - exists extracted. reflexivity.
  - simpl in Hgood. apply andb_prop in Hgood. destruct Hgood as [Hwf Hgood].
    unfold well_formed in Hwf. apply andb_prop in Hwf. destruct Hwf as [Hn Hd].
    simpl. unfold bind, lift. rewrite Hrt. unfold ret at 1.
    destruct (getitem video_file "name") as [name|]; [|discriminate].
    destruct (getitem video_file "camera_id") as [device|]; [|discriminate].
    apply IH. exact Hgood.
Qed.

(** X3: with [return_timestamps] false, the first entry on which
    [video_file["name"]] or [video_file["camera_id"]] raises ends the
    whole call with that exception: the records built for the entries
    before it are not returned, the entries after it are not looked at. *)
Theorem extract_stops_at_first_malformed_entry
    (reader : pyval -> result pyval) (self : FlVideoFilesExtractor) (st : io)
    (good : list pyval) (bad : pyval) (rest : list pyval) :
  return_timestamps self = false ->
  video_files_metadata self = good ++ bad :: rest ->
  forallb well_formed good = true ->
  (forall e, getitem bad "name" = Raise e ->
             extract_video_files reader self st = (Raise e, st)) /\
  (forall name e,
     getitem bad "name" = Ok name ->
     getitem bad "camera_id" = Raise e ->
     extract_video_files reader self st = (Raise e, st)).
Proof.
  intros Hrt Hmeta Hgood. unfold extract_video_files. rewrite Hmeta.
  destruct (extract_loop_skip_good reader self good Hrt Hgood (bad :: rest) [] st)
    as (extracted' & ->).
  split.
  - intros e He. simpl. unfold bind, lift. rewrite Hrt, He. reflexivity.
  - intros name e Hn He. simpl. unfold bind, lift. rewrite Hrt, Hn, He. reflexivity.
Qed.

Lemma extract_stops_at_first_malformed_entry_witness :
  extract_video_files (reader_of disk_synced)
    (extractor_on [camA; cam_without_id; camB] true false) io0 = (Raise KeyError, io0) /\
  extract_video_files (reader_of disk_synced)
    (extractor_on [camA; PStr "camB.mp4"; camB] true false) io0 = (Raise TypeError, io0).
Proof.
  split.
  - exact (proj2 (extract_stops_at_first_malformed_entry (reader_of disk_synced)
                    (extractor_on [camA; cam_without_id; camB] true false) io0
                    [camA] cam_without_id [camB] eq_refl eq_refl eq_refl)
             (PStr "camC.mp4") KeyError eq_refl eq_refl).
  - exact (proj1 (extract_stops_at_first_malformed_entry (reader_of disk_synced)
                    (extractor_on [camA; PStr "camB.mp4"; camB] true false) io0
                    [camA] (PStr "camB.mp4") [camB] eq_refl eq_refl eq_refl)
             TypeError eq_refl).
Defined.

(** The loop over a concatenation is the loop over the first part
    followed by the loop over the second. *)
Lemma extract_loop_app reader self l1 l2 :
  forall extracted st,
    extract_loop reader self (l1 ++ l2) extracted st
    = match extract_loop reader self l1 extracted st with
      | (Ok extracted', st') => extract_loop reader self l2 extracted' st'
      | (Raise e, st') => (Raise e, st')
      end.
Proof.
  induction l1 as [|video_file l1 IH]; intros extracted st.
  - reflexivity.
  - simpl. unfold bind.
    destruct (if return_timestamps self
              then _get_timestamps reader self video_file
              else ret (PArray (FloatArray []))) as [[timestamps|e] st1];
      [|reflexivity].
    destruct (lift (getitem video_file "name") st1) as [[name|e] st2]; [|reflexivity].
    destruct (lift (getitem video_file "camera_id") st2) as [[device|e] st3];
      [|reflexivity].
    apply IH.
Qed.

(** The records already collected are carried through unchanged. *)
Lemma extract_loop_extracted reader self video_files :
  forall extracted st,
    extract_loop reader self video_files extracted st
    = match extract_loop reader self video_files [] st with
      | (Ok new, st') => (Ok (extracted ++ new), st')
      | (Raise e, st') => (Raise e, st')
      end.
Proof.
  induction video_files as [|video_file rest IH]; intros extracted st.
  - simpl. unfold ret. rewrite app_nil_r. reflexivity.
  - simpl. unfold bind.
    destruct (if return_timestamps self
              then _get_timestamps reader self video_file
              else ret (PArray (FloatArray []))) as [[timestamps|e] st1];
      [|reflexivity].
    destruct (lift (getitem video_file "name") st1) as [[name|e] st2]; [|reflexivity].
    destruct (lift (getitem video_file "camera_id") st2) as [[device|e] st3];
      [|reflexivity].
    rewrite (IH (extracted ++ _)), (IH [_]).
    destruct (extract_loop reader self rest [] st3) as [[new|e] st4]; [|reflexivity].
    simpl. rewrite <- app_assoc. reflexivity.
Qed.

(** The loop reads the configuration, not the stored list. *)
Lemma extract_loop_with_streams reader self streams video_files :
  forall extracted st,
    extract_loop reader (with_streams self streams) video_files extracted st
    = extract_loop reader self video_files extracted st.
Proof.
  induction video_files as [|video_file rest IH]; intros extracted st.
  - reflexivity.
  - simpl. unfold bind.
    change (_get_timestamps reader (with_streams self streams) video_file)
      with (_get_timestamps reader self video_file).
    destruct (if return_timestamps self
              then _get_timestamps reader self video_file
              else ret (PArray (FloatArray []))) as [[timestamps|e] st1];
      [|reflexivity].
    destruct (lift (getitem video_file "name") st1) as [[name|e] st2]; [|reflexivity].
    destruct (lift (getitem video_file "camera_id") st2) as [[device|e] st3];
      [|reflexivity].
    apply IH.
Qed.

(** X4: extraction distributes over concatenation of the metadata list.
    If the extractor returns [r1] on [l1] and [r2] on [l2], it returns
    [r1 ++ r2] on [l1 ++ l2]; if it raises on [l1], it raises the same
    exception on [l1 ++ l2]. *)
Theorem extract_video_files_app
    (reader : pyval -> result pyval) (self : FlVideoFilesExtractor) (st : io)
    (l1 l2 : list pyval) :
  (forall r1 r2 st1 st2,
     extract_video_files reader (with_streams self l1) st = (Ok r1, st1) ->
     extract_video_files reader (with_streams self l2) st = (Ok r2, st2) ->
     extract_video_files reader (with_streams self (l1 ++ l2)) st = (Ok (r1 ++ r2), st)) /\
  (forall e st1,
     extract_video_files reader (with_streams self l1) st = (Raise e, st1) ->
     extract_video_files reader (with_streams self (l1 ++ l2)) st = (Raise e, st)).
Proof.
  unfold extract_video_files. simpl.
  rewrite !extract_loop_with_streams.
  set (self' := self).
  split.
  - intros r1 r2 st1 st2 H1 H2.
    pose proof (proj1 (extract_loop_state_and_reader reader reader self' l1 [] st)) as Hs1.
    rewrite H1 in Hs1. simpl in Hs1. subst st1.
    pose proof (proj1 (extract_loop_state_and_reader reader reader self' l2 [] st)) as Hs2.
    rewrite H2 in Hs2. simpl in Hs2. subst st2.
    rewrite extract_loop_app, H1, extract_loop_extracted, H2. reflexivity.
  - intros e st1 H1.
    pose proof (proj1 (extract_loop_state_and_reader reader reader self' l1 [] st)) as Hs1.
    rewrite H1 in Hs1. simpl in Hs1. subst st1.
    rewrite extract_loop_app, H1. reflexivity.
Qed.

Lemma extract_video_files_app_witness :
  extract_video_files (reader_of disk_synced)
    (with_streams (extractor_on [] true false) ([camA] ++ [camB])) io0
  = (Ok ([PDict [("name", PStr "camA.mp4"); ("timestamps", PArray (FloatArray []));
                 ("device", PInt 7)]] ++
         [PDict [("name", PStr "camB.h264"); ("timestamps", PArray (FloatArray []));
                 ("device", PInt 9)]]), io0) /\
  extract_video_files (reader_of disk_synced)
    (with_streams (extractor_on [] true false) ([cam_without_id] ++ [camB])) io0
  = (Raise KeyError, io0).
Proof.
  split.
  - exact (proj1 (extract_video_files_app (reader_of disk_synced)
                    (extractor_on [] true false) io0 [camA] [camB])
             _ _ io0 io0 eq_refl eq_refl).
  - exact (proj2 (extract_video_files_app (reader_of disk_synced)
                    (extractor_on [] true false) io0 [cam_without_id] [camB])
             KeyError io0 eq_refl).
Defined.

Lemma stem_of_str video_file s st :
  getitem video_file "name" = Ok (PStr s) ->
  stem_of video_file st
  = (Ok (PStr (String.substring 0 (String.length s - 4) s)), st).
Proof.
  intros H. unfold stem_of, bind, lift. rewrite H. reflexivity.
Qed.

(** X5: the override for old datasets.  Whenever the hardware-sync read
    raises [FileNotFoundError] and the frame-count read returns [v],
    [_get_timestamps] returns [v] itself, for either value of
    [convert_timestamps] and without calling the conversion, and logs
    the one line for the old dataset with the name less its last four
    characters. *)
Theorem legacy_path_returns_raw_values
    (read_hw read_fc : pyval -> M io pyval) (convert : pyval -> M io pyval)
    (self : FlVideoFilesExtractor) (video_file : pyval) (s : string)
    (st st1 st2 : io) (v : pyval) :
  getitem video_file "name" = Ok (PStr s) ->
  read_hw video_file st = (Raise FileNotFoundError, st1) ->
  read_fc video_file st1 = (Ok v, st2) ->
  _get_timestamps_with read_hw read_fc convert self video_file st
  = (Ok v,
     {| reads := reads st2;
        infos := infos st2 ++
                 [("Loaded cameraHWFrameCount for {} (old dataset)",
                   PStr (String.substring 0 (String.length s - 4) s))] |}).
Proof.
  intros Hname Hhw Hfc.
  eapply get_timestamps_with_legacy; [exact Hhw | exact Hfc |].
  apply stem_of_str. exact Hname.
Qed.

Lemma legacy_path_returns_raw_values_witness :
  Intended.get_timestamps (reader_of disk_legacy) (extractor_on [camA] true true) camA io0
  = (Ok (PArray (IntArray [0; 1; 2])),
     {| reads := [PStr "/data/camAvideoTimeStamps.cameraHWSync";
                  PStr "/data/camAvideoTimeStamps.cameraHWFrameCount"];
        infos := [("Loaded cameraHWFrameCount for {} (old dataset)", PStr "camA")] |}) /\
  Intended.get_timestamps (reader_of disk_legacy) (extractor_on [camA] false true) camA io0
  = (Ok (PArray (IntArray [0; 1; 2])),
     {| reads := [PStr "/data/camAvideoTimeStamps.cameraHWSync";
                  PStr "/data/camAvideoTimeStamps.cameraHWFrameCount"];
        infos := [("Loaded cameraHWFrameCount for {} (old dataset)", PStr "camA")] |}).
Proof.
  unfold Intended.get_timestamps. split.
  - exact (legacy_path_returns_raw_values _ _ _ (extractor_on [camA] true true) camA
             "camA.mp4" io0
             {| reads := [PStr "/data/camAvideoTimeStamps.cameraHWSync"]; infos := [] |}
             {| reads := [PStr "/data/camAvideoTimeStamps.cameraHWSync";
                          PStr "/data/camAvideoTimeStamps.cameraHWFrameCount"];
                infos := [] |}
             (PArray (IntArray [0; 1; 2])) eq_refl eq_refl eq_refl).
  - exact (legacy_path_returns_raw_values _ _ _ (extractor_on [camA] false true) camA
             "camA.mp4" io0
             {| reads := [PStr "/data/camAvideoTimeStamps.cameraHWSync"]; infos := [] |}
             {| reads := [PStr "/data/camAvideoTimeStamps.cameraHWSync";
                          PStr "/data/camAvideoTimeStamps.cameraHWFrameCount"];
                infos := [] |}
             (PArray (IntArray [0; 1; 2])) eq_refl eq_refl eq_refl).
Defined.

(** X6: the hardware-sync path.  Whenever the hardware-sync read returns
    [v], the frame-count read is not used, the line for the hardware-sync
    path is logged, and the result is [v / 1E9] when [convert_timestamps]
    is set and [v] itself otherwise; for an integer array the converted
    result is a float array of the same length. *)
Theorem synced_path_converts_iff_flag
    (read_hw read_fc : pyval -> M io pyval)
    (self : FlVideoFilesExtractor) (video_file : pyval) (s : string)
    (st st1 : io) (v : pyval) :
  getitem video_file "name" = Ok (PStr s) ->
  read_hw video_file st = (Ok v, st1) ->
  let st2 := {| reads := reads st1;
                infos := infos st1 ++
                         [("Loaded cameraHWSync timestamps for {}",
                           PStr (String.substring 0 (String.length s - 4) s))] |} in
  _get_timestamps_with read_hw read_fc (_convert_timestamps self) self video_file st
  = ((if convert_timestamps self then truediv v NANOSECONDS_PER_SECOND else Ok v), st2) /\
  (forall l, v = PArray (IntArray l) -> convert_timestamps self = true ->
     exists l',
       length l' = length l /\
       _get_timestamps_with read_hw read_fc (_convert_timestamps self) self video_file st
       = (Ok (PArray (FloatArray l')), st2)).
Proof.
  intros Hname Hhw st2.
  assert (Hmain :
    _get_timestamps_with read_hw read_fc (_convert_timestamps self) self video_file st
    = ((if convert_timestamps self then truediv v NANOSECONDS_PER_SECOND else Ok v), st2)).
  { rewrite (get_timestamps_with_synced read_hw read_fc (_convert_timestamps self) self
               video_file st v st1 _ Hhw (stem_of_str video_file s st1 Hname)).
    simpl. destruct (convert_timestamps self); reflexivity. }
  split; [exact Hmain|].
  intros l -> Hflag. rewrite Hmain, Hflag. simpl.
  eexists. split; [|reflexivity]. apply length_map.
Qed.

Lemma synced_path_converts_iff_flag_witness :
  Intended.get_timestamps (reader_of disk_synced) (extractor_on [camA] true true) camA io0
  = (truediv (PArray (IntArray [1000000000; 2000000000])) NANOSECONDS_PER_SECOND,
     {| reads := [PStr "/data/camAvideoTimeStamps.cameraHWSync"];
        infos := [("Loaded cameraHWSync timestamps for {}", PStr "camA")] |}) /\
  Intended.get_timestamps (reader_of disk_synced) (extractor_on [camA] false true) camA io0
  = (Ok (PArray (IntArray [1000000000; 2000000000])),
     {| reads := [PStr "/data/camAvideoTimeStamps.cameraHWSync"];
        infos := [("Loaded cameraHWSync timestamps for {}", PStr "camA")] |}).
Proof.
  unfold Intended.get_timestamps. split.
  - exact (proj1 (synced_path_converts_iff_flag _ _ (extractor_on [camA] true true) camA
                    "camA.mp4" io0
                    {| reads := [PStr "/data/camAvideoTimeStamps.cameraHWSync"];
                       infos := [] |}
                    (PArray (IntArray [1000000000; 2000000000])) eq_refl eq_refl)).
  - exact (proj1 (synced_path_converts_iff_flag _ _ (extractor_on [camA] false true) camA
                    "camA.mp4" io0
                    {| reads := [PStr "/data/camAvideoTimeStamps.cameraHWSync"];
                       infos := [] |}
                    (PArray (IntArray [1000000000; 2000000000])) eq_refl eq_refl)).
Defined.

(** ** Further properties of the orchestrator *)

Section OrchestratorFailures.

Variable Content : Type.
Variable extract : extract_args -> filesystem -> result unit * filesystem.
Variable build : NWBFileBuilder -> filesystem -> result Content * filesystem.
Variable write : NWBFileBuilder -> Content -> filesystem -> result unit * filesystem.

Local Abbreviation loop := (build_nwb_loop Content build write).
Local Abbreviation run_build := (build_nwb Content extract build write).

(** X7: when the extractor raises, [build_nwb] raises the same exception
    for any list of dates, with the extractor as its only call: no
    builder is built or written. *)
Theorem build_nwb_preprocessing_failure
    (self : RawToNWBBuilder) (h : host Content) (e : exn) (f1 : filesystem) :
  extract (preprocess_args self) (fs h) = (Raise e, f1) ->
  run_build self h
  = (Raise e, {| fs := f1; calls := calls h ++ [CallExtract (preprocess_args self)] |}).
Proof.
  intros He. unfold build_nwb, bind, __preprocess_data, call_extract.
  rewrite He. reflexivity.
Qed.





(** X12: whatever it finds, [cleanup] calls no collaborator, leaves
    every path that is not the working directory or below it as it was,
    and creates nothing: what is on the file system afterwards was there
    before. *)
Theorem cleanup_touches_only_working_directory
    (self : RawToNWBBuilder) (h : host Content) :
  calls (snd (cleanup Content self h)) = calls h /\
  (forall q, is_under (preprocessing_dir self) q = false ->
             fs (snd (cleanup Content self h)) !! q = fs h !! q) /\
  (forall q x, fs (snd (cleanup Content self h)) !! q = Some x -> fs h !! q = Some x).
Proof.
  pose proof (cleanup_outcome Content self h) as H1.
  destruct (fs h !! preprocessing_dir self) as [[|]|]; rewrite H1; simpl;
    try (repeat split; auto; fail).
  split; [reflexivity|]. split.
  - intros q Hq. rewrite remove_tree_lookup, Hq. reflexivity.
  - intros q x. rewrite remove_tree_lookup.
    destruct (is_under (preprocessing_dir self) q); [discriminate | auto].
Qed.

(** X13: when a regular file sits at the path of the working directory,
    [os.path.exists] holds and [shutil.rmtree] rejects it: [cleanup]
    raises [NotADirectoryError] and changes nothing. *)
Theorem cleanup_on_regular_file_raises
    (self : RawToNWBBuilder) (h : host Content) :
  fs h !! preprocessing_dir self = Some File ->
  cleanup Content self h = (Raise NotADirectoryError, h).
Proof.
  intros Hp. pose proof (cleanup_outcome Content self h) as H1.
  rewrite Hp in H1. exact H1.
Qed.

End OrchestratorFailures.


Lemma build_nwb_preprocessing_failure_witness :
  build_nwb string failing_extract demo_build demo_write
    (demo_builder ["20190718"; "20190719"]) host0
  = (Raise (OtherException "ExtractionError"),
     {| fs := ∅;
        calls := [CallExtract (preprocess_args (demo_builder ["20190718"; "20190719"]))] |}).
Proof.
  exact (build_nwb_preprocessing_failure string failing_extract demo_build demo_write
           (demo_builder ["20190718"; "20190719"]) host0
           (OtherException "ExtractionError") ∅ eq_refl).
Defined.



Lemma cleanup_touches_only_working_directory_witness :
  is_under (preprocessing_dir (demo_builder ["20190718"])) "beans20190718.nwb" = false /\
  fs (snd (cleanup string (demo_builder ["20190718"]) host_after_build))
    !! "beans20190718.nwb"
  = fs host_after_build !! "beans20190718.nwb" /\
  calls (snd (cleanup string (demo_builder ["20190718"]) host_after_build))
  = calls host_after_build.
Proof.
  destruct (cleanup_touches_only_working_directory string (demo_builder ["20190718"])
              host_after_build) as (Hcalls & Hframe & _).
  split; [reflexivity|]. split; [|exact Hcalls].
  apply Hframe. reflexivity.
Defined.

Lemma cleanup_on_regular_file_raises_witness :
  cleanup string (demo_builder [])
    {| fs := {["/data/beans/preprocessing" := File]}; calls := [] |}
  = (Raise NotADirectoryError,
     {| fs := {["/data/beans/preprocessing" := File]}; calls := [] |}).
Proof.
  apply (cleanup_on_regular_file_raises string (demo_builder [])).
  vm_compute. reflexivity.
Defined.

(** ** Output file names *)

Lemma append_inv_head (s a b : string) : s +:+ a = s +:+ b -> a = b.
Proof.
  induction s as [|c s IH]; simpl; intros H.
  - exact H.
  - injection H as H. apply IH. exact H.
Qed.

Lemma list_ascii_of_append (a b : string) :
  String.list_ascii_of_string (a +:+ b)
  = String.list_ascii_of_string a ++ String.list_ascii_of_string b.
Proof.
  induction a as [|c a IH]; simpl.
  - reflexivity.
  - rewrite IH. reflexivity.
Qed.

Lemma append_inv_tail (a b t : string) : a +:+ t = b +:+ t -> a = b.
Proof.
  intros H. apply (f_equal String.list_ascii_of_string) in H.
  rewrite !list_ascii_of_append in H. apply List.app_inv_tail in H.
  apply (f_equal String.string_of_list_ascii) in H.
  rewrite !String.string_of_list_ascii_of_string in H. exact H.
Qed.

Lemma append_assoc (a b c : string) : (a +:+ b) +:+ c = a +:+ b +:+ c.
Proof.
  induction a as [|x a IH].
  - reflexivity.
  - change (String x ((a +:+ b) +:+ c) = String x (a +:+ b +:+ c)).
    f_equal. exact IH.
Qed.

(** X10: within one builder the output file name determines the date:
    two dates with the same output file are equal, so a list of dates
    without repetition is written to as many different files. *)
Theorem output_file_determines_date (self : RawToNWBBuilder) :
  (forall d1 d2,
     b_output_file (builder_for self d1) = b_output_file (builder_for self d2) ->
     d1 = d2) /\
  (NoDup (dates self) ->
   NoDup ((fun d => b_output_file (builder_for self d)) <$> dates self)).
Proof.
  assert (Hinj : Inj (=) (=) (fun d => b_output_file (builder_for self d))).
  { intros d1 d2 H. simpl in H.
    apply append_inv_head in H. apply append_inv_head in H.
    apply append_inv_tail in H. exact H. }
  split.
  - intros d1 d2 H. apply Hinj. exact H.
  - intros Hnd. apply NoDup_fmap_2; assumption.
Qed.

Lemma output_file_determines_date_witness :
  NoDup (dates (demo_builder ["20190718"; "20190719"])) /\
  NoDup ["beans20190718.nwb"; "beans20190719.nwb"].
Proof.
  assert (Hnd : NoDup (dates (demo_builder ["20190718"; "20190719"]))).
  { simpl. apply NoDup_cons_2.
    - intros Hin. apply list_elem_of_In in Hin. destruct Hin as [H|[]]. discriminate H.
    - apply NoDup_cons_2; [|apply NoDup_nil_2].
      intros Hin. apply list_elem_of_In in Hin. destruct Hin. }
  split; [exact Hnd|].
  exact (proj2 (output_file_determines_date (demo_builder ["20190718"; "20190719"])) Hnd).
Defined.

(** X11: the output file name is the plain concatenation of output path,
    animal name, date and [".nwb"], with nothing in between: moving
    characters from the front of the date to the end of the animal name
    gives the same file. *)
Theorem output_file_has_no_separator
    (self self' : RawToNWBBuilder) (x date : string) :
  output_path self' = output_path self ->
  animal_name self' = animal_name self +:+ x ->
  b_output_file (builder_for self' date) = b_output_file (builder_for self (x +:+ date)).
Proof.
  intros Hout Hname. unfold builder_for. cbn [b_output_file].
  rewrite Hout, Hname, !append_assoc. reflexivity.
Qed.

Lemma output_file_has_no_separator_witness :
  b_output_file
    (builder_for (RawToNWBBuilder_init "/data" "beans2" ["0190718"] demo_metadata) "0190718")
  = b_output_file
      (builder_for (RawToNWBBuilder_init "/data" "beans" ["20190718"] demo_metadata)
         ("2" +:+ "0190718")).
Proof.
  exact (output_file_has_no_separator
           (RawToNWBBuilder_init "/data" "beans" ["20190718"] demo_metadata)
           (RawToNWBBuilder_init "/data" "beans2" ["0190718"] demo_metadata)
           "2" "0190718" eq_refl eq_refl).
Defined.
